(** * Rule-based registration and checkout coordinators

    A shallow embedding of [Tugas_Mandiri.py] (course registration) and
    [refactor_solid.py] (order checkout), and the properties of their
    coordinators.

    Python objects are mutable and passed by reference, so every method is
    a state transformer over the objects it can reach.  Integers are
    Python's unbounded [int], hence [Z]. *)

From Stdlib Require Import ZArith List String Ascii Bool Lia Floats.
From Stdlib Require Import Permutation.
Import ListNotations.
Local Open Scope Z_scope.
Local Open Scope list_scope.

Set Implicit Arguments.

(** ** A small state monad *)

Definition State (S A : Type) : Type := S -> A * S.

Definition ret {S A : Type} (a : A) : State S A := fun s => (a, s).

Definition bind {S A B : Type} (m : State S A) (k : A -> State S B)
  : State S B :=
  fun s => let r := m s in k (fst r) (snd r).

Definition gets {S A : Type} (f : S -> A) : State S A := fun s => (f s, s).

Definition modify {S : Type} (f : S -> S) : State S unit :=
  fun s => (tt, f s).

Declare Scope state_scope.
Delimit Scope state_scope with state.
Notation "x <- m ;; k" := (bind m (fun x => k))
  (at level 61, m at next level, right associativity) : state_scope.
Notation "m ;; k" := (bind m (fun _ => k))
  (at level 61, right associativity) : state_scope.
Local Open Scope state_scope.

(** ** The [logging] module, as far as the two programs use it *)

Module Logging.

Inductive level : Type := INFO | WARNING | ERROR.

(** An f-string is kept as the sequence of its parts: the literal text
    and the interpolated values, which Python renders with [str()]. *)
Inductive part : Type :=
| Lit (s : string)
| Str (s : string)
| Int (z : Z)
| Flt (f : float).

Definition fstring : Type := list part.

(** [basicConfig] shows every record of level INFO and above, that is
    every record the programs emit, as level, logger name and message. *)
Record LogRecord : Type := mkLogRecord
  { levelname : level; logger : string; message : fstring }.

Definition newline : string := String (ascii_of_nat 10) EmptyString.

End Logging.

(** ** [Tugas_Mandiri.py] *)

Module TugasMandiri.
Import Logging.

Record Student : Type := mkStudent
  { name : string;
    current_sks : Z;
    prerequisites_met : bool;
    schedule : list string }.

Record Course : Type := mkCourse
  { code : string;
    sks : Z;
    prerequisite_needed : bool;
    schedule_code : string }.

(** What a call [validate(student, course)] can reach: the two objects
    it is handed by reference and the records logged so far. *)
Record Heap : Type := mkHeap
  { student : Student; course : Course; records : list LogRecord }.

Definition set_student (f : Student -> Student) (h : Heap) : Heap :=
  mkHeap (f (student h)) (course h) (records h).

Definition emit (l : level) (msg : fstring) : State Heap unit :=
  modify (fun h =>
    mkHeap (student h) (course h)
           (records h ++ [mkLogRecord l "registration" msg])).

Definition LOGGER_info : fstring -> State Heap unit := emit INFO.
Definition LOGGER_warning : fstring -> State Heap unit := emit WARNING.

(** [IValidationRule]: one abstract method, [validate], run on the heap
    that holds the student and the course it is called with. *)
Record IValidationRule : Type := mkRule { validate : State Heap bool }.

Definition MAX_SKS : Z := 24.

Definition SksLimitRule : IValidationRule := mkRule (
  s <- gets student ;;
  c <- gets course ;;
  if current_sks s + sks c >? MAX_SKS then
    LOGGER_warning
      [Lit "❌ GAGAL SKS: "; Str (name s); Lit " melampaui batas SKS ";
       Lit "("; Int (current_sks s + sks c); Lit " dari "; Int MAX_SKS;
       Lit ")."] ;;
    ret false
  else ret true).

Definition PrerequisiteRule : IValidationRule := mkRule (
  s <- gets student ;;
  c <- gets course ;;
  if prerequisite_needed c && negb (prerequisites_met s) then
    LOGGER_warning
      [Lit "❌ GAGAL PRASYARAT: "; Str (name s);
       Lit " belum memenuhi prasyarat untuk "; Str (code c); Lit "."] ;;
    ret false
  else ret true).

(** Python's [x in xs] on a list of [str]: some element equals [x]. *)
Definition contains (x : string) (xs : list string) : bool :=
  existsb (String.eqb x) xs.

Definition JadwalBentrokRule : IValidationRule := mkRule (
  s <- gets student ;;
  c <- gets course ;;
  if contains (schedule_code c) (schedule s) then
    LOGGER_warning
      [Lit "❌ GAGAL BENTROK: Jadwal "; Str (schedule_code c);
       Lit " bentrok dengan jadwal "; Str (name s); Lit " saat ini."] ;;
    ret false
  else ret true).

(** The coordinator runs over the heap and a trace of the calls it
    makes: [calls] lists, in order, the index in [validation_rules] of
    every rule whose [validate] was invoked.  A rule sees the heap only. *)
Record World : Type := mkWorld { heap : Heap; calls : list nat }.

Definition lift {A : Type} (m : State Heap A) : State World A :=
  fun w => let r := m (heap w) in (fst r, mkWorld (snd r) (calls w)).

Definition invoke (i : nat) (rule : IValidationRule) : State World bool :=
  modify (fun w => mkWorld (heap w) (calls w ++ [i])) ;;
  lift (validate rule).

(** [for rule in self.validation_rules: ...], from index [i] on.
    [Some v]: the body executed [return v]; [None]: the loop ran out. *)
Fixpoint for_rules (rules : list IValidationRule) (i : nat)
  : State World (option bool) :=
  match rules with
  | [] => ret None
  | rule :: rest =>
      ok <- invoke i rule ;;
      if negb ok then
        lift (LOGGER_info [Lit "⛔ Pendaftaran dibatalkan."]) ;;
        ret (Some false)
      else for_rules rest (S i)
  end.

Definition register_course (validation_rules : list IValidationRule)
  : State World bool :=
  s0 <- lift (gets student) ;;
  c0 <- lift (gets course) ;;
  lift (LOGGER_info
          [Lit newline; Lit "--- Memulai Pendaftaran "; Str (code c0);
           Lit " untuk "; Str (name s0); Lit " ---"]) ;;
  returned <- for_rules validation_rules 0 ;;
  match returned with
  | Some v => ret v
  | None =>
      c <- lift (gets course) ;;
      lift (modify (set_student (fun s =>
        mkStudent (name s) (current_sks s + sks c)
                  (prerequisites_met s) (schedule s)))) ;;
      lift (modify (set_student (fun s =>
        mkStudent (name s) (current_sks s) (prerequisites_met s)
                  (schedule s ++ [schedule_code c])))) ;;
      lift (LOGGER_info
              [Lit "✅ Pendaftaran "; Str (code c); Lit " berhasil!"]) ;;
      ret true
  end.

(** The demo data of the module. *)
Definition student_andi : Student :=
  mkStudent "Andi" 15 true ["Selasa_10.00"; "Rabu_13.00"]%string.
Definition student_budi : Student :=
  mkStudent "Budi" 22 false ["Jumat_08.00"]%string.
Definition course_pbo : Course := mkCourse "PBO" 3 false "Senin_08.00".
Definition course_pweb : Course := mkCourse "Pweb" 4 true "Selasa_10.00".
Definition course_statis : Course :=
  mkCourse "Statis" 3 true "Selasa_14.00".
Definition initial_rules : list IValidationRule :=
  [SksLimitRule; PrerequisiteRule].
Definition ocp_rules : list IValidationRule :=
  [SksLimitRule; PrerequisiteRule; JadwalBentrokRule].

(** *** Notions the properties of the registration are stated with *)

(** What [rule.validate(S, C)] returns. *)
Definition verdict (rule : IValidationRule) (S : Student) (C : Course)
  : bool :=
  fst (validate rule (mkHeap S C [])).

(** The contract of a validation rule: it may log, it mutates neither of
    its arguments, and its result is a function of them. *)
Record respects_contract (rule : IValidationRule) : Prop :=
  { leaves_student : forall h, student (snd (validate rule h)) = student h;
    leaves_course : forall h, course (snd (validate rule h)) = course h;
    result_of_inputs :
      forall h, fst (validate rule h) = verdict rule (student h) (course h) }.

(** The index of the first rule of the list that rejects [(S, C)]. *)
Fixpoint first_failure (rules : list IValidationRule) (S : Student)
  (C : Course) : option nat :=
  match rules with
  | [] => None
  | rule :: rest =>
      if verdict rule S C then option_map Datatypes.S (first_failure rest S C)
      else Some 0%nat
  end.

(** The student registered after a successful [register_course]. *)
Definition registered (S : Student) (C : Course) : Student :=
  mkStudent (name S) (current_sks S + sks C) (prerequisites_met S)
            (schedule S ++ [schedule_code C]).

(** A caller that registers the same student object for one course after
    the other, through one service. *)
Definition with_course (C : Course) (w : World) : World :=
  mkWorld (mkHeap (student (heap w)) C (records (heap w))) (calls w).

Fixpoint register_each (validation_rules : list IValidationRule)
  (courses : list Course) (w : World) : World :=
  match courses with
  | [] => w
  | C :: rest =>
      register_each validation_rules rest
        (snd (register_course validation_rules (with_course C w)))
  end.

(** A fresh run: nothing logged, no call made. *)
Definition fresh (S : Student) (C : Course) : World :=
  mkWorld (mkHeap S C []) [].

(** *** Notions the further properties of the registration are stated with *)

(** The records [register_course] and the three rules write. *)
Definition opening_record (S : Student) (C : Course) : LogRecord :=
  mkLogRecord INFO "registration"
    [Lit newline; Lit "--- Memulai Pendaftaran "; Str (code C);
     Lit " untuk "; Str (name S); Lit " ---"].

Definition success_record (C : Course) : LogRecord :=
  mkLogRecord INFO "registration"
    [Lit "✅ Pendaftaran "; Str (code C); Lit " berhasil!"].

Definition cancelled_record : LogRecord :=
  mkLogRecord INFO "registration" [Lit "⛔ Pendaftaran dibatalkan."].

Definition sks_warning (S : Student) (C : Course) : LogRecord :=
  mkLogRecord WARNING "registration"
    [Lit "❌ GAGAL SKS: "; Str (name S); Lit " melampaui batas SKS ";
     Lit "("; Int (current_sks S + sks C); Lit " dari "; Int 24; Lit ")."].

Definition prerequisite_warning (S : Student) (C : Course) : LogRecord :=
  mkLogRecord WARNING "registration"
    [Lit "❌ GAGAL PRASYARAT: "; Str (name S);
     Lit " belum memenuhi prasyarat untuk "; Str (code C); Lit "."].

Definition conflict_warning (S : Student) (C : Course) : LogRecord :=
  mkLogRecord WARNING "registration"
    [Lit "❌ GAGAL BENTROK: Jadwal "; Str (schedule_code C);
     Lit " bentrok dengan jadwal "; Str (name S); Lit " saat ini."].


End TugasMandiri.

(** ** [refactor_solid.py] *)

Module RefactorSolid.
Import Logging.

Record Order : Type := mkOrder
  { customer_name : string; total_price : float; status : string }.

(** The dataclass default [status = "open"]. *)
Definition new_Order (customer_name : string) (total_price : float)
  : Order :=
  mkOrder customer_name total_price "open".

(** What a method handed [order] can reach: the order, the records
    logged so far and the lines printed so far. *)
Record Heap : Type := mkHeap
  { order : Order; records : list LogRecord; stdout : list fstring }.

Definition set_status (v : string) : State Heap unit :=
  modify (fun h =>
    mkHeap (mkOrder (customer_name (order h)) (total_price (order h)) v)
           (records h) (stdout h)).

Definition print (msg : fstring) : State Heap unit :=
  modify (fun h => mkHeap (order h) (records h) (stdout h ++ [msg])).

Definition emit (l : level) (msg : fstring) : State Heap unit :=
  modify (fun h =>
    mkHeap (order h) (records h ++ [mkLogRecord l "checkout" msg])
           (stdout h)).

Definition LOGGER_info : fstring -> State Heap unit := emit INFO.
Definition LOGGER_error : fstring -> State Heap unit := emit ERROR.

(** [OrderManager.process_checkout], the "before" example. *)
Definition process_checkout (payment_method : string) : State Heap bool :=
  o <- gets order ;;
  print [Lit "Memulai checkout untuk "; Str (customer_name o);
         Lit "..."] ;;
  returned <-
    (if String.eqb payment_method "credit_card" then
       print [Lit "Processing Credit Card..."] ;; ret None
     else if String.eqb payment_method "bank_transfer" then
       print [Lit "Processing Bank Transfer..."] ;; ret None
     else
       print [Lit "Metode tidak valid."] ;; ret (Some false)) ;;
  match returned with
  | Some v => ret v
  | None =>
      o <- gets order ;;
      print [Lit "Mengirim notifikasi ke "; Str (customer_name o);
             Lit "..."] ;;
      set_status "paid" ;;
      ret true
  end.

(** The two contracts, [process(order) -> bool] and [send(order)]. *)
Record IPaymentProcessor : Type :=
  mkProcessor { process : State Heap bool }.
Record INotificationService : Type :=
  mkNotifier { send : State Heap unit }.

Definition CreditCardProcessor : IPaymentProcessor := mkProcessor (
  LOGGER_info [Lit "Payment: Memproses kartu kredit."] ;;
  ret true).

Definition QrisProcessor : IPaymentProcessor := mkProcessor (
  LOGGER_info [Lit "Payment: Memproses QRIS."] ;;
  ret true).

Definition EmailNotifier : INotificationService := mkNotifier (
  o <- gets order ;;
  LOGGER_info [Lit "Notif: Mengirim mail konfirmasi ke ";
               Str (customer_name o); Lit "."]).

(** The coordinator runs over the heap and a trace of the calls it
    makes on its two injected dependencies. *)
Inductive Call : Type := CallProcess | CallSend.

Record World : Type := mkWorld { heap : Heap; calls : list Call }.

Definition lift {A : Type} (m : State Heap A) : State World A :=
  fun w => let r := m (heap w) in (fst r, mkWorld (snd r) (calls w)).

Definition invoke {A : Type} (c : Call) (m : State Heap A)
  : State World A :=
  modify (fun w => mkWorld (heap w) (calls w ++ [c])) ;;
  lift m.

Record CheckoutService : Type := mkCheckoutService
  { payment_processor : IPaymentProcessor;
    notifier : INotificationService }.

Definition run_checkout (self : CheckoutService) : State World bool :=
  o <- lift (gets order) ;;
  lift (LOGGER_info
          [Lit "Memulai checkout untuk "; Str (customer_name o);
           Lit ". Total: "; Flt (total_price o)]) ;;
  payment_success <- invoke CallProcess (process (payment_processor self)) ;;
  if payment_success : bool then
    lift (set_status "paid") ;;
    invoke CallSend (send (notifier self)) ;;
    lift (LOGGER_info [Lit "Checkout Sukses. Status pesanan: PAID."]) ;;
    ret true
  else
    lift (LOGGER_error [Lit "Pembayaran gagal. Transaksi dibatalkan."]) ;;
    ret false.

(** The demo data of the module ([total_price] at its declared type). *)
Definition andi_order : Order := new_Order "Andi" 500000%float.
Definition budi_order : Order := new_Order "Budi" 100000%float.
Definition checkout_cc : CheckoutService :=
  mkCheckoutService CreditCardProcessor EmailNotifier.
Definition checkout_qris : CheckoutService :=
  mkCheckoutService QrisProcessor EmailNotifier.

(** *** Notions the properties of the checkout are stated with *)

(** [run_checkout] calls [process] once, on the heap it was given plus
    its own opening record; this is that call. *)
Definition payment (self : CheckoutService) (w : World) : bool * Heap :=
  let o := order (heap w) in
  process (payment_processor self)
    (snd (LOGGER_info
            [Lit "Memulai checkout untuk "; Str (customer_name o);
             Lit ". Total: "; Flt (total_price o)] (heap w))).

(** Orders are mutated by the coordinator only: neither injected
    dependency writes to the order it is handed. *)
Definition processor_keeps_order (p : IPaymentProcessor) : Prop :=
  forall h, order (snd (process p h)) = order h.

Definition notifier_keeps_order (n : INotificationService) : Prop :=
  forall h, order (snd (send n h)) = order h.

(** A fresh run: nothing logged or printed, no call made. *)
Definition fresh (o : Order) : World := mkWorld (mkHeap o [] []) [].

(** A processor that declines every payment. *)
Definition DecliningProcessor : IPaymentProcessor := mkProcessor (ret false).

(** *** Notions the further properties of the checkout are stated with *)

(** A caller that runs the same order through one service [n] times. *)
Fixpoint checkout_times (self : CheckoutService) (n : nat) (w : World)
  : World :=
  match n with
  | O => w
  | S n' => checkout_times self n' (snd (run_checkout self w))
  end.

(** The records [run_checkout] writes. *)
Definition opening_record (o : Order) : LogRecord :=
  mkLogRecord INFO "checkout"
    [Lit "Memulai checkout untuk "; Str (customer_name o);
     Lit ". Total: "; Flt (total_price o)].

Definition success_record : LogRecord :=
  mkLogRecord INFO "checkout" [Lit "Checkout Sukses. Status pesanan: PAID."].

Definition failure_record : LogRecord :=
  mkLogRecord ERROR "checkout"
    [Lit "Pembayaran gagal. Transaksi dibatalkan."].

Definition mail_record (o : Order) : LogRecord :=
  mkLogRecord INFO "checkout"
    [Lit "Notif: Mengirim mail konfirmasi ke "; Str (customer_name o);
     Lit "."].

(** The order once it is paid. *)
Definition paid (o : Order) : Order :=
  mkOrder (customer_name o) (total_price o) "paid".

End RefactorSolid.

(** * Properties of the registration *)

Unset Implicit Arguments.

Module RegistrationProps.
Import Logging TugasMandiri.

Ltac unfold_state :=
  unfold invoke, lift, bind, ret, gets, modify, set_student,
    LOGGER_info, LOGGER_warning, emit in *.

(** ** The three rules of the module *)

Lemma SksLimitRule_result (h : Heap) :
  fst (validate SksLimitRule h)
  = negb (current_sks (student h) + sks (course h) >? MAX_SKS).
Proof.
  simpl. unfold_state. simpl.
  destruct (current_sks (student h) + sks (course h) >? MAX_SKS);
    reflexivity.
Qed.

Lemma SksLimitRule_frame (h : Heap) :
  student (snd (validate SksLimitRule h)) = student h
  /\ course (snd (validate SksLimitRule h)) = course h.
Proof.
  simpl. unfold_state. simpl.
  destruct (current_sks (student h) + sks (course h) >? MAX_SKS);
    split; reflexivity.
Qed.

Lemma PrerequisiteRule_result (h : Heap) :
  fst (validate PrerequisiteRule h)
  = negb (prerequisite_needed (course h)
          && negb (prerequisites_met (student h))).
Proof.
  simpl. unfold_state. simpl.
  destruct (prerequisite_needed (course h)
            && negb (prerequisites_met (student h))); reflexivity.
Qed.

Lemma PrerequisiteRule_frame (h : Heap) :
  student (snd (validate PrerequisiteRule h)) = student h
  /\ course (snd (validate PrerequisiteRule h)) = course h.
Proof.
  simpl. unfold_state. simpl.
  destruct (prerequisite_needed (course h)
            && negb (prerequisites_met (student h))); split; reflexivity.
Qed.

Lemma JadwalBentrokRule_result (h : Heap) :
  fst (validate JadwalBentrokRule h)
  = negb (contains (schedule_code (course h)) (schedule (student h))).
Proof.
  simpl. unfold_state. simpl.
  destruct (contains (schedule_code (course h)) (schedule (student h)));
    reflexivity.
Qed.

Lemma JadwalBentrokRule_frame (h : Heap) :
  student (snd (validate JadwalBentrokRule h)) = student h
  /\ course (snd (validate JadwalBentrokRule h)) = course h.
Proof.
  simpl. unfold_state. simpl.
  destruct (contains (schedule_code (course h)) (schedule (student h)));
    split; reflexivity.
Qed.

Lemma contains_In (x : string) (xs : list string) :
  contains x xs = true <-> In x xs.
Proof.
  unfold contains. rewrite existsb_exists. split.
  - intros [y [Hin Heq]]. apply String.eqb_eq in Heq. now subst.
  - intros Hin. exists x. split; [assumption | apply String.eqb_refl].
Qed.

Lemma SksLimitRule_contract : respects_contract SksLimitRule.
Proof.
  constructor; intros h; try apply SksLimitRule_frame.
  unfold verdict. now rewrite !SksLimitRule_result.
Qed.

Lemma PrerequisiteRule_contract : respects_contract PrerequisiteRule.
Proof.
  constructor; intros h; try apply PrerequisiteRule_frame.
  unfold verdict. now rewrite !PrerequisiteRule_result.
Qed.

Lemma JadwalBentrokRule_contract : respects_contract JadwalBentrokRule.
Proof.
  constructor; intros h; try apply JadwalBentrokRule_frame.
  unfold verdict. now rewrite !JadwalBentrokRule_result.
Qed.

Lemma ocp_rules_contract : Forall respects_contract ocp_rules.
Proof.
  unfold ocp_rules.
  repeat (apply Forall_cons || apply Forall_nil);
    [ apply SksLimitRule_contract | apply PrerequisiteRule_contract
    | apply JadwalBentrokRule_contract ].
Qed.

(** C4: [SksLimitRule.validate(S, C)] returns true exactly when
    [S.current_sks + C.sks <= 24], and leaves both [S] and [C] as they
    were. *)
Theorem SksLimitRule_validate_spec (h : Heap) :
  (fst (validate SksLimitRule h) = true
   <-> current_sks (student h) + sks (course h) <= 24)
  /\ student (snd (validate SksLimitRule h)) = student h
  /\ course (snd (validate SksLimitRule h)) = course h.
Proof.
  split; [| apply SksLimitRule_frame].
  rewrite SksLimitRule_result, negb_true_iff. unfold MAX_SKS.
  rewrite Z.gtb_ltb, Z.ltb_ge. reflexivity.
Qed.

(** C6: [PrerequisiteRule.validate(S, C)] returns false exactly when
    [C.prerequisite_needed] is true and [S.prerequisites_met] is false,
    returns true in every other case, and leaves both [S] and [C] as they
    were. *)
Theorem PrerequisiteRule_validate_spec (h : Heap) :
  (fst (validate PrerequisiteRule h) = false
   <-> prerequisite_needed (course h) = true
       /\ prerequisites_met (student h) = false)
  /\ (~ (prerequisite_needed (course h) = true
         /\ prerequisites_met (student h) = false)
      <-> fst (validate PrerequisiteRule h) = true)
  /\ student (snd (validate PrerequisiteRule h)) = student h
  /\ course (snd (validate PrerequisiteRule h)) = course h.
Proof.
  split; [| split; [| apply PrerequisiteRule_frame]];
    rewrite PrerequisiteRule_result;
    destruct (prerequisite_needed (course h)),
      (prerequisites_met (student h)); simpl; intuition congruence.
Qed.

(** ** The loop over the injected rules *)

Lemma for_rules_pass (rule : IValidationRule) (rest : list IValidationRule)
  (i : nat) (w : World) :
  fst (validate rule (heap w)) = true ->
  for_rules (rule :: rest) i w
  = for_rules rest (S i) (snd (invoke i rule w)).
Proof.
  intros Hok. simpl. unfold bind at 1.
  replace (fst (invoke i rule w)) with true by (symmetry; exact Hok).
  reflexivity.
Qed.

Lemma for_rules_fail (rule : IValidationRule) (rest : list IValidationRule)
  (i : nat) (w : World) :
  fst (validate rule (heap w)) = false ->
  fst (for_rules (rule :: rest) i w) = Some false
  /\ student (heap (snd (for_rules (rule :: rest) i w)))
     = student (snd (validate rule (heap w)))
  /\ course (heap (snd (for_rules (rule :: rest) i w)))
     = course (snd (validate rule (heap w)))
  /\ calls (snd (for_rules (rule :: rest) i w)) = calls w ++ [i]
  /\ forall rest', for_rules (rule :: rest') i w
                   = for_rules (rule :: rest) i w.
Proof.
  intros Hbad. simpl. unfold bind at 1 3 5 7.
  replace (fst (invoke i rule w)) with false by (symmetry; exact Hbad).
  repeat split.
  intros rest'. unfold bind at 1 3.
  replace (fst (invoke i rule w)) with false by (symmetry; exact Hbad).
  reflexivity.
Qed.

Lemma invoke_student (rule : IValidationRule) (i : nat) (w : World) :
  respects_contract rule ->
  student (heap (snd (invoke i rule w))) = student (heap w)
  /\ course (heap (snd (invoke i rule w))) = course (heap w)
  /\ calls (snd (invoke i rule w)) = calls w ++ [i].
Proof.
  intros [Hs Hc _]. repeat split; [apply Hs | apply Hc].
Qed.

(** Under the contract the loop leaves both objects alone and returns
    early, with [False], exactly when some rule rejects. *)
Lemma for_rules_contract (rules : list IValidationRule) (S : Student)
  (C : Course) :
  Forall respects_contract rules ->
  forall (i : nat) (w : World),
    student (heap w) = S -> course (heap w) = C ->
    student (heap (snd (for_rules rules i w))) = S
    /\ course (heap (snd (for_rules rules i w))) = C
    /\ fst (for_rules rules i w)
       = if forallb (fun rule => verdict rule S C) rules
         then None else Some false.
Proof.
  induction 1 as [| rule rest Hrule _ IH]; intros i w HS HC.
  - repeat split; assumption.
  - pose proof (result_of_inputs Hrule (heap w)) as Hres.
    rewrite HS, HC in Hres.
    destruct (invoke_student rule i w Hrule) as (Hs & Hc & _).
    cbn [forallb]. destruct (verdict rule S C) eqn:Hv.
    + rewrite for_rules_pass by exact Hres.
      apply IH; congruence.
    + destruct (for_rules_fail rule rest i w Hres) as (Hf & Hs' & Hc' & _).
      rewrite Hf, Hs', Hc'.
      rewrite (leaves_student Hrule), (leaves_course Hrule).
      repeat split; assumption.
Qed.

Lemma forallb_verdict (rules : list IValidationRule) (S : Student)
  (C : Course) :
  forallb (fun rule => verdict rule S C) rules = true
  <-> Forall (fun rule => verdict rule S C = true) rules.
Proof.
  rewrite forallb_forall, Forall_forall. reflexivity.
Qed.

(** What [register_course] does around the loop: it opens with a record
    (the world [w0] the loop starts from), hands on what the loop returned
    early, and commits when the loop ran out. *)
Lemma register_course_unfold (w : World) :
  exists w0 : World,
    student (heap w0) = student (heap w)
    /\ course (heap w0) = course (heap w)
    /\ calls w0 = calls w
    /\ forall rules : list IValidationRule,
         let l := for_rules rules 0 w0 in
         let r := register_course rules w in
         (forall v, fst l = Some v -> r = (v, snd l))
         /\ (fst l = None ->
             fst r = true
             /\ student (heap (snd r))
                = registered (student (heap (snd l))) (course (heap (snd l)))
             /\ course (heap (snd r)) = course (heap (snd l))
             /\ calls (snd r) = calls (snd l)).
Proof.
  eexists. split; [| split; [| split]].
  4: { intros rules l r. subst l r.
       unfold register_course, bind. cbv beta zeta. split.
       - intros v Hv. rewrite Hv. reflexivity.
       - intros Hv. rewrite Hv. repeat split. }
  all: reflexivity.
Qed.

(** ** [register_course] under the rule contract *)

Lemma register_course_contract (rules : list IValidationRule) (w : World) :
  Forall respects_contract rules ->
  let S := student (heap w) in
  let C := course (heap w) in
  let r := register_course rules w in
  let all_pass := forallb (fun rule => verdict rule S C) rules in
  fst r = all_pass
  /\ student (heap (snd r)) = (if all_pass then registered S C else S)
  /\ course (heap (snd r)) = C.
Proof.
  intros Hrules S C r all_pass.
  destruct (register_course_unfold w) as (w0 & Hs & Hc & _ & Hrun).
  destruct (Hrun rules) as [Hearly Hcommit].
  destruct (for_rules_contract rules S C Hrules 0%nat w0 Hs Hc)
    as (Hs1 & Hc1 & Hfst).
  fold all_pass in Hfst. fold r in Hearly, Hcommit.
  destruct all_pass.
  - destruct (Hcommit Hfst) as (Hr & Hst & Hco & _).
    rewrite Hr, Hst, Hco, Hs1, Hc1. repeat split.
  - rewrite (Hearly false Hfst). cbn [fst snd]. repeat split; assumption.
Qed.

Lemma Exists_forallb_false (rules : list IValidationRule) (S : Student)
  (C : Course) :
  Exists (fun rule => verdict rule S C = false) rules ->
  forallb (fun rule => verdict rule S C) rules = false.
Proof.
  induction 1 as [rule rest Hbad | rule rest _ IH]; cbn [forallb].
  - rewrite Hbad. reflexivity.
  - rewrite IH. apply andb_false_r.
Qed.

(** C1: with rules that keep their contract, [register_course(S, C)]
    returns true exactly when every injected rule accepts [(S, C)]; and
    when it returns true the student's [current_sks] has grown by exactly
    [C.sks] and [C.schedule_code] is the new last element of
    [S.schedule], nothing else of the student having changed. *)
Theorem register_course_true_iff_all_rules
  (rules : list IValidationRule) (w : World) :
  Forall respects_contract rules ->
  let S := student (heap w) in
  let C := course (heap w) in
  let r := register_course rules w in
  (fst r = true <-> Forall (fun rule => verdict rule S C = true) rules)
  /\ (fst r = true ->
      current_sks (student (heap (snd r))) = current_sks S + sks C
      /\ schedule (student (heap (snd r))) = schedule S ++ [schedule_code C]
      /\ student (heap (snd r)) = registered S C).
Proof.
  intros Hrules S C r.
  destruct (register_course_contract rules w Hrules) as (Hr & Hst & _).
  fold S C r in Hr, Hst. split.
  - rewrite Hr. apply forallb_verdict.
  - intros Htrue. rewrite Hr in Htrue. rewrite Htrue in Hst.
    rewrite Hst. repeat split.
Qed.

(** C2: with rules that keep their contract, if some injected rule
    rejects [(S, C)] then [register_course] returns false and the student
    (every field of it) is what it was before the call; so is the
    course. *)
Theorem register_course_rejected_leaves_student
  (rules : list IValidationRule) (w : World) :
  Forall respects_contract rules ->
  Exists (fun rule => verdict rule (student (heap w)) (course (heap w))
                      = false) rules ->
  let r := register_course rules w in
  fst r = false
  /\ student (heap (snd r)) = student (heap w)
  /\ course (heap (snd r)) = course (heap w).
Proof.
  intros Hrules Hbad r.
  destruct (register_course_contract rules w Hrules) as (Hr & Hst & Hco).
  rewrite (Exists_forallb_false _ _ _ Hbad) in Hr, Hst.
  repeat split; assumption.
Qed.

(** ** Short circuit *)

Lemma for_rules_short_circuit (st : Student) (co : Course) :
  forall (rules : list IValidationRule) (i k : nat) (w : World)
         (rules' : list IValidationRule),
    student (heap w) = st -> course (heap w) = co ->
    Forall respects_contract (firstn (S i) rules) ->
    first_failure rules st co = Some i ->
    firstn (S i) rules' = firstn (S i) rules ->
    for_rules rules' k w = for_rules rules k w
    /\ fst (for_rules rules k w) = Some false
    /\ calls (snd (for_rules rules k w)) = calls w ++ seq k (S i).
Proof.
  induction rules as [| rule rest IH];
    intros i k w rules' Hst Hco Hcontract Hfirst Hagree.
  - discriminate Hfirst.
  - destruct rules' as [| rule' rest']; [discriminate Hagree |].
    cbn [firstn] in Hagree, Hcontract.
    injection Hagree as -> Hagree.
    inversion Hcontract as [| ? ? Hrule Hrest]; subst.
    pose proof (result_of_inputs Hrule (heap w)) as Hres.
    cbn [first_failure] in Hfirst.
    destruct (verdict rule (student (heap w)) (course (heap w))) eqn:Hv.
    + destruct (first_failure rest _ _) as [i' |] eqn:Hrec;
        [| discriminate Hfirst].
      injection Hfirst as <-.
      rewrite !for_rules_pass by exact Hres.
      destruct (invoke_student rule k w Hrule) as (Hs & Hc & Hcalls).
      destruct (IH i' (S k) (snd (invoke k rule w)) rest' Hs Hc Hrest
                   eq_refl Hagree) as (Heq & Hfalse & Htrace).
      repeat split; [exact Heq | exact Hfalse |].
      rewrite Htrace, Hcalls, <- app_assoc. reflexivity.
    + injection Hfirst as <-.
      destruct (for_rules_fail rule rest k w Hres)
        as (Hfalse & _ & _ & Htrace & Hindep).
      repeat split; [apply Hindep | exact Hfalse | exact Htrace].
Qed.

(** C7: the rules are evaluated in list order and the first rejection
    ends the run.  If the first rule of [rules] to reject [(S, C)] stands
    at index [i] (the rules up to it keeping their contract), then
    [register_course] returns false, the rules it has called are exactly
    those at indices [0..i] in that order, and any list that agrees with
    [rules] on indices [0..i] gives the same result and the same final
    state, whatever stands after index [i]. *)
Theorem register_course_short_circuits
  (rules rules' : list IValidationRule) (i : nat) (w : World) :
  Forall respects_contract (firstn (S i) rules) ->
  first_failure rules (student (heap w)) (course (heap w)) = Some i ->
  firstn (S i) rules' = firstn (S i) rules ->
  fst (register_course rules w) = false
  /\ calls (snd (register_course rules w)) = calls w ++ seq 0 (S i)
  /\ register_course rules' w = register_course rules w.
Proof.
  intros Hcontract Hfirst Hagree.
  destruct (register_course_unfold w) as (w0 & Hs & Hc & Hcalls & Hrun).
  rewrite <- Hs, <- Hc in Hfirst.
  destruct (for_rules_short_circuit _ _ rules i 0%nat w0 rules'
              eq_refl eq_refl Hcontract Hfirst Hagree)
    as (Heq & Hfalse & Htrace).
  destruct (Hrun rules) as [Hearly _].
  destruct (Hrun rules') as [Hearly' _].
  rewrite Heq in Hearly'.
  rewrite (Hearly' false Hfalse), (Hearly false Hfalse). cbn [fst snd].
  rewrite Htrace, Hcalls. repeat split.
Qed.

(** ** The schedule check is made on the schedule before the call *)

Lemma JadwalBentrokRule_verdict (st : Student) (co : Course) :
  verdict JadwalBentrokRule st co = true
  <-> ~ In (schedule_code co) (schedule st).
Proof.
  unfold verdict. rewrite JadwalBentrokRule_result, negb_true_iff.
  cbn [student course]. rewrite <- contains_In.
  destruct (contains _ _); split; congruence.
Qed.

(** C5: [JadwalBentrokRule.validate(S, C)] returns true exactly when
    [C.schedule_code] is not an element of [S.schedule] as it stands when
    the rule is called, and leaves both [S] and [C] as they were.  In a
    [register_course] run (rules keeping their contract) that is the
    schedule from before the call: the run succeeds only if the code is
    not in it, although the code is in the schedule once the run has
    succeeded. *)
Theorem JadwalBentrokRule_validate_spec (h : Heap) :
  (fst (validate JadwalBentrokRule h) = true
   <-> ~ In (schedule_code (course h)) (schedule (student h)))
  /\ student (snd (validate JadwalBentrokRule h)) = student h
  /\ course (snd (validate JadwalBentrokRule h)) = course h
  /\ forall (rules : list IValidationRule) (w : World),
       Forall respects_contract rules ->
       In JadwalBentrokRule rules ->
       fst (register_course rules w) = true ->
       ~ In (schedule_code (course (heap w))) (schedule (student (heap w)))
       /\ In (schedule_code (course (heap w)))
             (schedule (student (heap (snd (register_course rules w))))).
Proof.
  split; [| split; [apply JadwalBentrokRule_frame |
                    split; [apply JadwalBentrokRule_frame |]]].
  - rewrite JadwalBentrokRule_result, negb_true_iff, <- contains_In.
    destruct (contains _ _); split; congruence.
  - intros rules w Hrules Hin Htrue.
    destruct (register_course_contract rules w Hrules) as (Hr & Hst & _).
    rewrite Hr in Htrue. rewrite Htrue in Hst. split.
    + apply JadwalBentrokRule_verdict.
      rewrite forallb_forall in Htrue. exact (Htrue _ Hin).
    + rewrite Hst. cbn [registered schedule]. apply in_or_app.
      right. left. reflexivity.
Qed.

(** ** The credit limit as an invariant *)

Lemma SksLimitRule_verdict (st : Student) (co : Course) :
  verdict SksLimitRule st co = true <-> current_sks st + sks co <= 24.
Proof.
  unfold verdict. rewrite SksLimitRule_result, negb_true_iff.
  cbn [student course]. unfold MAX_SKS.
  rewrite Z.gtb_ltb, Z.ltb_ge. reflexivity.
Qed.

Lemma register_course_sks (rules : list IValidationRule) (w : World) :
  In SksLimitRule rules ->
  Forall respects_contract rules ->
  let r := register_course rules w in
  (fst r = true ->
   current_sks (student (heap (snd r)))
   = current_sks (student (heap w)) + sks (course (heap w))
   /\ current_sks (student (heap (snd r))) <= 24)
  /\ (fst r = false ->
      current_sks (student (heap (snd r))) = current_sks (student (heap w))).
Proof.
  intros Hin Hrules r.
  destruct (register_course_contract rules w Hrules) as (Hr & Hst & _).
  fold r in Hr, Hst. split; intros Hres; rewrite Hr in Hres;
    rewrite Hres in Hst; rewrite Hst; [| reflexivity].
  cbn [registered current_sks]. split; [reflexivity |].
  apply SksLimitRule_verdict.
  rewrite forallb_forall in Hres. exact (Hres _ Hin).
Qed.

(** C10: when [SksLimitRule] is one of the injected rules (all of them
    keeping their contract), every [register_course] call preserves
    [current_sks <= 24]: a successful call sets [current_sks] to the sum
    the rule checked, which is at most 24, and a failed call leaves it as
    it was; hence any sequence of calls on a student that starts with
    [current_sks <= 24] ends with [current_sks <= 24]. *)
Theorem sks_limit_preserved (rules : list IValidationRule) :
  In SksLimitRule rules ->
  Forall respects_contract rules ->
  (forall w : World,
     let r := register_course rules w in
     (fst r = true ->
      current_sks (student (heap (snd r)))
      = current_sks (student (heap w)) + sks (course (heap w))
      /\ current_sks (student (heap (snd r))) <= 24)
     /\ (fst r = false ->
         current_sks (student (heap (snd r)))
         = current_sks (student (heap w))))
  /\ (forall (courses : list Course) (w : World),
        current_sks (student (heap w)) <= 24 ->
        current_sks (student (heap (register_each rules courses w))) <= 24).
Proof.
  intros Hin Hrules. split.
  - intros w. apply register_course_sks; assumption.
  - induction courses as [| co rest IH]; intros w Hle; [exact Hle |].
    cbn [register_each]. apply IH.
    destruct (register_course_sks rules (with_course co w) Hin Hrules)
      as [Hyes Hno].
    destruct (fst (register_course rules (with_course co w))).
    + apply Hyes. reflexivity.
    + rewrite Hno by reflexivity. exact Hle.
Qed.

(** ** The properties at the demo data of the module *)

Lemma register_course_true_iff_all_rules_witness :
  Forall respects_contract ocp_rules
  /\ fst (register_course ocp_rules (fresh student_andi course_pbo)) = true
  /\ student (heap (snd (register_course ocp_rules
                           (fresh student_andi course_pbo))))
     = mkStudent "Andi" 18 true
         ["Selasa_10.00"; "Rabu_13.00"; "Senin_08.00"]%string.
Proof.
  destruct (register_course_true_iff_all_rules ocp_rules
              (fresh student_andi course_pbo) ocp_rules_contract)
    as [Hiff Hpost].
  assert (Htrue : fst (register_course ocp_rules
                         (fresh student_andi course_pbo)) = true).
  { apply Hiff. unfold ocp_rules. repeat apply Forall_cons;
      [reflexivity | reflexivity | reflexivity | apply Forall_nil]. }
  split; [exact ocp_rules_contract |]. split; [exact Htrue |].
  destruct (Hpost Htrue) as (_ & _ & ->). reflexivity.
Defined.

Lemma register_course_rejected_leaves_student_witness :
  Forall respects_contract ocp_rules
  /\ Exists (fun rule => verdict rule student_budi course_pweb = false)
            ocp_rules
  /\ fst (register_course ocp_rules (fresh student_budi course_pweb)) = false
  /\ student (heap (snd (register_course ocp_rules
                           (fresh student_budi course_pweb))))
     = student_budi.
Proof.
  assert (Hbad : Exists (fun rule => verdict rule student_budi course_pweb
                                     = false) ocp_rules)
    by (apply Exists_cons_hd; reflexivity).
  destruct (register_course_rejected_leaves_student ocp_rules
              (fresh student_budi course_pweb) ocp_rules_contract Hbad)
    as (Hfalse & Hsame & _).
  split; [exact ocp_rules_contract |]. split; [exact Hbad |].
  split; [exact Hfalse | exact Hsame].
Defined.

Lemma register_course_short_circuits_witness :
  first_failure ocp_rules student_andi course_pweb = Some 2%nat
  /\ fst (register_course ocp_rules (fresh student_andi course_pweb)) = false
  /\ calls (snd (register_course ocp_rules
                   (fresh student_andi course_pweb))) = [0; 1; 2]%nat
  /\ register_course (ocp_rules ++ [mkRule (ret true)])
       (fresh student_andi course_pweb)
     = register_course ocp_rules (fresh student_andi course_pweb).
Proof.
  split; [reflexivity |].
  exact (register_course_short_circuits ocp_rules
           (ocp_rules ++ [mkRule (ret true)]) 2
           (fresh student_andi course_pweb)
           ocp_rules_contract eq_refl eq_refl).
Defined.

Lemma JadwalBentrokRule_validate_spec_witness :
  fst (validate JadwalBentrokRule (mkHeap student_andi course_pweb []))
  = false
  /\ fst (register_course ocp_rules (fresh student_andi course_pbo)) = true
  /\ ~ In "Senin_08.00"%string (schedule student_andi).
Proof.
  destruct (JadwalBentrokRule_validate_spec
              (mkHeap student_andi course_pweb [])) as (_ & _ & _ & Hrun).
  split; [reflexivity |]. split; [reflexivity |].
  apply (Hrun ocp_rules (fresh student_andi course_pbo) ocp_rules_contract).
  - right. right. left. reflexivity.
  - reflexivity.
Defined.

Lemma sks_limit_preserved_witness :
  In SksLimitRule ocp_rules
  /\ Forall respects_contract ocp_rules
  /\ current_sks (student (heap (register_each ocp_rules
                                   [course_pbo; course_pweb; course_statis]
                                   (fresh student_budi course_pbo)))) <= 24.
Proof.
  assert (Hin : In SksLimitRule ocp_rules) by (left; reflexivity).
  split; [exact Hin |]. split; [exact ocp_rules_contract |].
  apply (sks_limit_preserved ocp_rules Hin ocp_rules_contract).
  cbn. lia.
Defined.

(** ** The four scenarios of the demo program *)

Example scenario_andi_pbo :
  register_course initial_rules (fresh student_andi course_pbo)
  = (true,
     mkWorld
       (mkHeap
          (mkStudent "Andi" 18 true
             ["Selasa_10.00"; "Rabu_13.00"; "Senin_08.00"]%string)
          course_pbo
          [mkLogRecord INFO "registration"
             [Lit newline; Lit "--- Memulai Pendaftaran "; Str "PBO";
              Lit " untuk "; Str "Andi"; Lit " ---"];
           mkLogRecord INFO "registration"
             [Lit "✅ Pendaftaran "; Str "PBO"; Lit " berhasil!"]])
       [0; 1]%nat).
Proof. reflexivity. Qed.

Example scenario_andi_pweb_conflict :
  let after_pbo :=
    snd (register_course initial_rules (fresh student_andi course_pbo)) in
  let r := register_course ocp_rules (with_course course_pweb after_pbo) in
  fst r = false
  /\ student (heap (snd r)) = student (heap after_pbo)
  /\ calls (snd r) = [0; 1; 0; 1; 2]%nat.
Proof. repeat split. Qed.

Example scenario_budi_pweb_sks :
  let r := register_course ocp_rules (fresh student_budi course_pweb) in
  fst r = false
  /\ current_sks (student (heap (snd r))) = 22
  /\ calls (snd r) = [0]%nat
  /\ records (heap (snd r))
     = [mkLogRecord INFO "registration"
          [Lit newline; Lit "--- Memulai Pendaftaran "; Str "Pweb";
           Lit " untuk "; Str "Budi"; Lit " ---"];
        mkLogRecord WARNING "registration"
          [Lit "❌ GAGAL SKS: "; Str "Budi"; Lit " melampaui batas SKS ";
           Lit "("; Int 26; Lit " dari "; Int 24; Lit ")."];
        mkLogRecord INFO "registration" [Lit "⛔ Pendaftaran dibatalkan."]].
Proof. repeat split. Qed.

Example scenario_budi_statis :
  let r := register_course ocp_rules (fresh student_budi course_statis) in
  fst r = false /\ student (heap (snd r)) = student_budi
  /\ calls (snd r) = [0]%nat.
Proof. repeat split. Qed.

End RegistrationProps.

(** * Properties of the checkout *)

Module CheckoutProps.
Import Logging RefactorSolid.

(** ** The implementations of the module keep the order they are handed *)

Lemma CreditCardProcessor_keeps_order :
  processor_keeps_order CreditCardProcessor.
Proof. intros h. reflexivity. Qed.

Lemma QrisProcessor_keeps_order : processor_keeps_order QrisProcessor.
Proof. intros h. reflexivity. Qed.

Lemma DecliningProcessor_keeps_order :
  processor_keeps_order DecliningProcessor.
Proof. intros h. reflexivity. Qed.

Lemma EmailNotifier_keeps_order : notifier_keeps_order EmailNotifier.
Proof. intros h. reflexivity. Qed.

(** ** [run_checkout], branch by branch *)

Lemma run_checkout_result (self : CheckoutService) (w : World) :
  fst (run_checkout self w) = fst (payment self w).
Proof.
  unfold run_checkout, payment, bind. cbv beta zeta.
  change (fst (invoke CallProcess ?m ?x)) with (fst (m (heap x))).
  cbn [lift gets fst snd heap].
  destruct (fst (process (payment_processor self) _)); reflexivity.
Qed.

Lemma run_checkout_accepted (self : CheckoutService) (w : World) :
  fst (payment self w) = true ->
  exists h : Heap,
    order h = mkOrder (customer_name (order (snd (payment self w))))
                      (total_price (order (snd (payment self w)))) "paid"
    /\ order (heap (snd (run_checkout self w)))
       = order (snd (send (notifier self) h))
    /\ calls (snd (run_checkout self w))
       = calls w ++ [CallProcess; CallSend].
Proof.
  intros Hok. unfold payment in Hok |- *.
  unfold run_checkout, bind. cbv beta zeta.
  change (fst (invoke CallProcess ?m ?x)) with (fst (m (heap x))).
  cbn [lift gets fst snd heap] in *. rewrite Hok.
  eexists. split; [| split]; [| reflexivity |].
  - reflexivity.
  - cbn. rewrite <- app_assoc. reflexivity.
Qed.

Lemma run_checkout_declined (self : CheckoutService) (w : World) :
  fst (payment self w) = false ->
  order (heap (snd (run_checkout self w))) = order (snd (payment self w))
  /\ calls (snd (run_checkout self w)) = calls w ++ [CallProcess].
Proof.
  intros Hbad. unfold payment in Hbad |- *.
  unfold run_checkout, bind. cbv beta zeta.
  change (fst (invoke CallProcess ?m ?x)) with (fst (m (heap x))).
  cbn [lift gets fst snd heap] in *. rewrite Hbad.
  split; reflexivity.
Qed.

Lemma payment_order (self : CheckoutService) (w : World) :
  processor_keeps_order (payment_processor self) ->
  order (snd (payment self w)) = order (heap w).
Proof. intros Hp. unfold payment. rewrite Hp. reflexivity. Qed.

Lemma run_checkout_outcome (self : CheckoutService) (w : World) :
  processor_keeps_order (payment_processor self) ->
  notifier_keeps_order (notifier self) ->
  (fst (payment self w) = true ->
   order (heap (snd (run_checkout self w)))
   = mkOrder (customer_name (order (heap w)))
             (total_price (order (heap w))) "paid"
   /\ calls (snd (run_checkout self w))
      = calls w ++ [CallProcess; CallSend])
  /\ (fst (payment self w) = false ->
      order (heap (snd (run_checkout self w))) = order (heap w)
      /\ calls (snd (run_checkout self w)) = calls w ++ [CallProcess]).
Proof.
  intros Hp Hn. split; intros Hres.
  - destruct (run_checkout_accepted self w Hres) as (h & Hh & Ho & Hc).
    rewrite Ho, Hn, Hh, (payment_order self w Hp). split; [reflexivity |].
    exact Hc.
  - destruct (run_checkout_declined self w Hres) as (Ho & Hc).
    rewrite Ho, (payment_order self w Hp). split; [reflexivity | exact Hc].
Qed.

(** C3: [run_checkout(O)] returns what the injected processor's
    [process(O)] returns.  When that is true, the order's status is set to
    "paid" (name and price as they were) and the notifier's [send(O)] is
    invoked after the processor; when it is false, the processor is the
    only dependency called, so the notifier is never invoked, and the order
    is unchanged: an order that was "open" remains "open".  The processor
    and the notifier are taken not to write to the order. *)
Theorem run_checkout_paid_iff_processed
  (self : CheckoutService) (w : World) :
  processor_keeps_order (payment_processor self) ->
  notifier_keeps_order (notifier self) ->
  let O := order (heap w) in
  let ok := fst (payment self w) in
  let r := run_checkout self w in
  fst r = ok
  /\ (ok = true ->
      order (heap (snd r)) = mkOrder (customer_name O) (total_price O) "paid"
      /\ status (order (heap (snd r))) = "paid"%string
      /\ calls (snd r) = calls w ++ [CallProcess; CallSend])
  /\ (ok = false ->
      order (heap (snd r)) = O
      /\ calls (snd r) = calls w ++ [CallProcess]
      /\ (status O = "open"%string ->
          status (order (heap (snd r))) = "open"%string)).
Proof.
  intros Hp Hn O ok r.
  destruct (run_checkout_outcome self w Hp Hn) as [Hyes Hno].
  split; [apply run_checkout_result |]. split; intros Hres.
  - destruct (Hyes Hres) as [Ho Hc]. subst r. rewrite Ho.
    repeat split. exact Hc.
  - destruct (Hno Hres) as [Ho Hc]. subst r. rewrite Ho.
    repeat split; [exact Hc | intros Hopen; exact Hopen].
Qed.

(** C9: [run_checkout] does not look at the status the order comes with.
    Whatever the initial status, a processor that returns true makes
    [run_checkout] set the status to "paid", invoke the notifier and return
    true; run again on the order it has just paid, with the processor
    returning true again, it succeeds again and notifies again; and when
    the processor returns false the status, whatever it was, is kept. *)
Theorem run_checkout_ignores_prior_status
  (self : CheckoutService) (w : World) :
  processor_keeps_order (payment_processor self) ->
  notifier_keeps_order (notifier self) ->
  let r1 := run_checkout self w in
  let r2 := run_checkout self (snd r1) in
  (fst (payment self w) = true ->
   fst r1 = true
   /\ status (order (heap (snd r1))) = "paid"%string
   /\ calls (snd r1) = calls w ++ [CallProcess; CallSend])
  /\ (fst (payment self w) = true ->
      fst (payment self (snd r1)) = true ->
      fst r2 = true
      /\ status (order (heap (snd r2))) = "paid"%string
      /\ calls (snd r2)
         = calls w ++ [CallProcess; CallSend; CallProcess; CallSend])
  /\ (fst (payment self w) = false ->
      fst r1 = false
      /\ status (order (heap (snd r1))) = status (order (heap w))
      /\ calls (snd r1) = calls w ++ [CallProcess]).
Proof.
  intros Hp Hn r1 r2.
  assert (Hfirst : fst (payment self w) = true ->
                   fst r1 = true
                   /\ status (order (heap (snd r1))) = "paid"%string
                   /\ calls (snd r1) = calls w ++ [CallProcess; CallSend]).
  { intros Hres. subst r1. rewrite run_checkout_result.
    destruct (run_checkout_outcome self w Hp Hn) as [Hyes _].
    destruct (Hyes Hres) as [Ho Hc]. rewrite Ho. repeat split.
    - exact Hres.
    - exact Hc. }
  split; [exact Hfirst |]. split.
  - intros Hres1 Hres2. destruct (Hfirst Hres1) as (_ & _ & Hc1).
    subst r2. rewrite run_checkout_result.
    destruct (run_checkout_outcome self (snd r1) Hp Hn) as [Hyes _].
    destruct (Hyes Hres2) as [Ho Hc]. rewrite Ho, Hc, Hc1, <- app_assoc.
    repeat split. exact Hres2.
  - intros Hres. subst r1. rewrite run_checkout_result.
    destruct (run_checkout_outcome self w Hp Hn) as [_ Hno].
    destruct (Hno Hres) as [Ho Hc]. rewrite Ho. repeat split.
    + exact Hres.
    + exact Hc.
Qed.

(** ** [OrderManager.process_checkout] *)

(** C8: in the "before" example, [process_checkout(order, payment_method)]
    with a method that is neither "credit_card" nor "bank_transfer" prints
    "Metode tidak valid." and returns false, the order (its status too)
    being left as it was; with either of the two recognised methods it
    sets the status to "paid" and returns true. *)
Theorem process_checkout_methods (payment_method : string) (h : Heap) :
  let r := process_checkout payment_method h in
  (payment_method <> "credit_card"%string ->
   payment_method <> "bank_transfer"%string ->
   fst r = false
   /\ order (snd r) = order h
   /\ stdout (snd r)
      = stdout h
        ++ [[Lit "Memulai checkout untuk "; Str (customer_name (order h));
             Lit "..."];
            [Lit "Metode tidak valid."]])
  /\ (payment_method = "credit_card"%string
      \/ payment_method = "bank_transfer"%string ->
      fst r = true
      /\ order (snd r)
         = mkOrder (customer_name (order h)) (total_price (order h)) "paid"
      /\ status (order (snd r)) = "paid"%string).
Proof.
  intros r. subst r. unfold process_checkout, bind. cbv beta zeta. split.
  - intros Hcc Hbt.
    apply String.eqb_neq in Hcc. apply String.eqb_neq in Hbt.
    rewrite Hcc, Hbt. cbn. rewrite <- app_assoc. repeat split.
  - intros [-> | ->]; cbn; repeat split.
Qed.

(** ** The properties at concrete orders *)

Lemma run_checkout_paid_iff_processed_witness :
  processor_keeps_order DecliningProcessor
  /\ notifier_keeps_order EmailNotifier
  /\ fst (run_checkout (mkCheckoutService DecliningProcessor EmailNotifier)
            (fresh andi_order)) = false
  /\ order (heap (snd (run_checkout
                         (mkCheckoutService DecliningProcessor EmailNotifier)
                         (fresh andi_order)))) = andi_order
  /\ calls (snd (run_checkout
                   (mkCheckoutService DecliningProcessor EmailNotifier)
                   (fresh andi_order))) = [CallProcess].
Proof.
  destruct (run_checkout_paid_iff_processed
              (mkCheckoutService DecliningProcessor EmailNotifier)
              (fresh andi_order) DecliningProcessor_keeps_order
              EmailNotifier_keeps_order) as (Hr & _ & Hno).
  destruct (Hno eq_refl) as (Ho & Hc & _).
  split; [exact DecliningProcessor_keeps_order |].
  split; [exact EmailNotifier_keeps_order |].
  split; [exact Hr |]. split; [exact Ho | exact Hc].
Defined.

Lemma run_checkout_ignores_prior_status_witness :
  processor_keeps_order CreditCardProcessor
  /\ notifier_keeps_order EmailNotifier
  /\ fst (run_checkout checkout_cc
            (snd (run_checkout checkout_cc
                    (fresh (mkOrder "Andi" 500000%float "paid"))))) = true
  /\ calls (snd (run_checkout checkout_cc
                   (snd (run_checkout checkout_cc
                           (fresh (mkOrder "Andi" 500000%float "paid"))))))
     = [CallProcess; CallSend; CallProcess; CallSend].
Proof.
  destruct (run_checkout_ignores_prior_status checkout_cc
              (fresh (mkOrder "Andi" 500000%float "paid"))
              CreditCardProcessor_keeps_order EmailNotifier_keeps_order)
    as (_ & Hagain & _).
  destruct (Hagain eq_refl eq_refl) as (Hr & _ & Hc).
  split; [exact CreditCardProcessor_keeps_order |].
  split; [exact EmailNotifier_keeps_order |].
  split; [exact Hr | exact Hc].
Defined.

Lemma process_checkout_methods_witness :
  "qris"%string <> "credit_card"%string
  /\ "qris"%string <> "bank_transfer"%string
  /\ fst (process_checkout "qris" (mkHeap andi_order [] [])) = false
  /\ order (snd (process_checkout "qris" (mkHeap andi_order [] [])))
     = andi_order
  /\ fst (process_checkout "bank_transfer" (mkHeap andi_order [] [])) = true.
Proof.
  assert (Hcc : "qris"%string <> "credit_card"%string) by discriminate.
  assert (Hbt : "qris"%string <> "bank_transfer"%string) by discriminate.
  destruct (process_checkout_methods "qris" (mkHeap andi_order [] []))
    as [Hbad _].
  destruct (Hbad Hcc Hbt) as (Hr & Ho & _).
  split; [exact Hcc |]. split; [exact Hbt |].
  split; [exact Hr |]. split; [exact Ho | reflexivity].
Defined.

(** ** The two scenarios of the demo program, and a declined payment *)

Example scenario_credit_card :
  run_checkout checkout_cc (fresh andi_order)
  = (true,
     mkWorld
       (mkHeap (mkOrder "Andi" 500000%float "paid")
          [mkLogRecord INFO "checkout"
             [Lit "Memulai checkout untuk "; Str "Andi"; Lit ". Total: ";
              Flt 500000%float];
           mkLogRecord INFO "checkout"
             [Lit "Payment: Memproses kartu kredit."];
           mkLogRecord INFO "checkout"
             [Lit "Notif: Mengirim mail konfirmasi ke "; Str "Andi";
              Lit "."];
           mkLogRecord INFO "checkout"
             [Lit "Checkout Sukses. Status pesanan: PAID."]]
          [])
       [CallProcess; CallSend]).
Proof. reflexivity. Qed.

Example scenario_qris :
  let r := run_checkout checkout_qris (fresh budi_order) in
  fst r = true /\ status (order (heap (snd r))) = "paid"%string
  /\ calls (snd r) = [CallProcess; CallSend].
Proof. repeat split. Qed.

Example scenario_declined :
  run_checkout (mkCheckoutService DecliningProcessor EmailNotifier)
    (fresh andi_order)
  = (false,
     mkWorld
       (mkHeap andi_order
          [mkLogRecord INFO "checkout"
             [Lit "Memulai checkout untuk "; Str "Andi"; Lit ". Total: ";
              Flt 500000%float];
           mkLogRecord ERROR "checkout"
             [Lit "Pembayaran gagal. Transaksi dibatalkan."]]
          [])
       [CallProcess]).
Proof. reflexivity. Qed.

End CheckoutProps.

(** * Further properties of the registration *)

Module RegistrationExtras.
Import Logging TugasMandiri RegistrationProps.

(** ** What the three rules write *)

Lemma SksLimitRule_run (h : Heap) :
  validate SksLimitRule h
  = if current_sks (student h) + sks (course h) >? 24
    then (false,
          mkHeap (student h) (course h)
            (records h ++ [sks_warning (student h) (course h)]))
    else (true, h).
Proof.
  simpl. unfold_state. cbn [fst snd]. unfold MAX_SKS.
  destruct (current_sks (student h) + sks (course h) >? 24); reflexivity.
Qed.

Lemma PrerequisiteRule_run (h : Heap) :
  validate PrerequisiteRule h
  = if prerequisite_needed (course h) && negb (prerequisites_met (student h))
    then (false,
          mkHeap (student h) (course h)
            (records h ++ [prerequisite_warning (student h) (course h)]))
    else (true, h).
Proof.
  simpl. unfold_state. cbn [fst snd].
  destruct (prerequisite_needed (course h)
            && negb (prerequisites_met (student h))); reflexivity.
Qed.

Lemma JadwalBentrokRule_run (h : Heap) :
  validate JadwalBentrokRule h
  = if contains (schedule_code (course h)) (schedule (student h))
    then (false,
          mkHeap (student h) (course h)
            (records h ++ [conflict_warning (student h) (course h)]))
    else (true, h).
Proof.
  simpl. unfold_state. cbn [fst snd].
  destruct (contains (schedule_code (course h)) (schedule (student h)));
    reflexivity.
Qed.



(** ** [register_course] as one equation *)

Lemma register_course_eq (rules : list IValidationRule) (w : World) :
  let S := student (heap w) in
  let C := course (heap w) in
  let w0 :=
    mkWorld (mkHeap S C (records (heap w) ++ [opening_record S C]))
            (calls w) in
  let l := for_rules rules 0 w0 in
  register_course rules w
  = match fst l with
    | Some v => (v, snd l)
    | None =>
        let h1 := heap (snd l) in
        (true,
         mkWorld
           (mkHeap (registered (student h1) (course h1)) (course h1)
                   (records h1 ++ [success_record (course h1)]))
           (calls (snd l)))
    end.
Proof.
  intros S C w0 l. subst l w0 S C.
  unfold register_course, bind. cbv beta zeta.
  change (snd (lift (LOGGER_info ?m) ?x))
    with (mkWorld (snd (LOGGER_info m (heap x))) (calls x)).
  cbn [lift gets fst snd heap calls LOGGER_info emit modify student course
       records].
  destruct (fst (for_rules rules 0 _)); reflexivity.
Qed.

(** X2: a service without rules accepts everything.  With the empty
    rule list every [register_course] calls no rule, returns true and
    commits; so registering a student for a list of courses adds all their
    credits and all their slots, in order, whatever the credit limit. *)
Theorem register_each_no_rules (courses : list Course) (w : World) :
  (forall w' : World, fst (register_course [] w') = true)
  /\ student (heap (register_each [] courses w))
     = mkStudent (name (student (heap w)))
         (current_sks (student (heap w))
          + fold_right Z.add 0 (map sks courses))
         (prerequisites_met (student (heap w)))
         (schedule (student (heap w)) ++ map schedule_code courses)
  /\ calls (register_each [] courses w) = calls w.
Proof.
  split; [intros w'; rewrite register_course_eq; reflexivity |].
  revert w. induction courses as [| C rest IH]; intros w.
  - cbn. rewrite Z.add_0_r, app_nil_r. destruct (student (heap w)).
    split; reflexivity.
  - cbn [register_each]. rewrite register_course_eq.
    cbn [for_rules ret fst snd heap calls student course with_course].
    match goal with
    | |- context [register_each [] rest ?w1] =>
        destruct (IH w1) as [Hst Hcalls]
    end.
    rewrite Hst, Hcalls.
    cbn [heap calls student registered name current_sks prerequisites_met
         schedule map fold_right].
    split; [| reflexivity].
    rewrite <- app_assoc, Z.add_assoc. reflexivity.
Qed.

(** ** The log of a run *)

Lemma for_rules_fail_heap (rule : IValidationRule)
  (rest : list IValidationRule) (i : nat) (w : World) :
  fst (validate rule (heap w)) = false ->
  fst (for_rules (rule :: rest) i w) = Some false
  /\ heap (snd (for_rules (rule :: rest) i w))
     = mkHeap (student (snd (validate rule (heap w))))
              (course (snd (validate rule (heap w))))
              (records (snd (validate rule (heap w))) ++ [cancelled_record])
  /\ calls (snd (for_rules (rule :: rest) i w)) = calls w ++ [i].
Proof.
  intros Hbad. simpl. unfold bind at 1 3 5.
  replace (fst (invoke i rule w)) with false by (symmetry; exact Hbad).
  repeat split.
Qed.



(** ** The service of the demo, case by case *)

Lemma ocp_rules_run (w : World) :
  let S := student (heap w) in
  let C := course (heap w) in
  let log := records (heap w) in
  register_course ocp_rules w
  = if current_sks S + sks C >? 24 then
      (false,
       mkWorld
         (mkHeap S C
            (log ++ [opening_record S C; sks_warning S C; cancelled_record]))
         (calls w ++ [0%nat]))
    else if prerequisite_needed C && negb (prerequisites_met S) then
      (false,
       mkWorld
         (mkHeap S C
            (log ++ [opening_record S C; prerequisite_warning S C;
                     cancelled_record]))
         (calls w ++ [0%nat; 1%nat]))
    else if contains (schedule_code C) (schedule S) then
      (false,
       mkWorld
         (mkHeap S C
            (log ++ [opening_record S C; conflict_warning S C;
                     cancelled_record]))
         (calls w ++ [0%nat; 1%nat; 2%nat]))
    else
      (true,
       mkWorld
         (mkHeap (registered S C) C
            (log ++ [opening_record S C; success_record C]))
         (calls w ++ [0%nat; 1%nat; 2%nat])).
Proof.
  intros S C log. rewrite register_course_eq. cbv zeta. fold S C log.
  unfold ocp_rules. cbn [for_rules]. unfold bind, invoke, lift, modify, bind.
  cbn [fst snd heap calls].
  rewrite SksLimitRule_run. cbn [student course records].
  destruct (current_sks S + sks C >? 24).
  { cbn. rewrite <- !app_assoc. reflexivity. }
  cbn [fst snd negb heap calls].
  rewrite PrerequisiteRule_run. cbn [student course records].
  destruct (prerequisite_needed C && negb (prerequisites_met S)).
  { cbn. rewrite <- !app_assoc. reflexivity. }
  cbn [fst snd negb heap calls].
  rewrite JadwalBentrokRule_run. cbn [student course records].
  destruct (contains (schedule_code C) (schedule S)).
  { cbn. rewrite <- !app_assoc. reflexivity. }
  cbn. rewrite <- !app_assoc. reflexivity.
Qed.

(** X4: what the service [ocp_rules] of the demo does, in full.  It
    reports one violation at most, the first in the order credit limit,
    prerequisite, schedule conflict, whatever else is violated: over the
    limit, only [SksLimitRule] is called and its WARNING logged; within
    the limit but lacking a required prerequisite, rules 0 and 1 are
    called and the prerequisite WARNING logged; otherwise, with the slot
    already held, all three are called and the conflict WARNING logged; in
    these three cases the student is untouched.  In the remaining case all
    three rules are called and the registration is committed. *)
Theorem ocp_rules_decision_table (w : World) :
  let S := student (heap w) in
  let C := course (heap w) in
  let log := records (heap w) in
  let r := register_course ocp_rules w in
  (current_sks S + sks C > 24 ->
   r = (false,
        mkWorld
          (mkHeap S C
             (log ++ [opening_record S C; sks_warning S C;
                      cancelled_record]))
          (calls w ++ [0%nat])))
  /\ (current_sks S + sks C <= 24 ->
      prerequisite_needed C = true /\ prerequisites_met S = false ->
      r = (false,
           mkWorld
             (mkHeap S C
                (log ++ [opening_record S C; prerequisite_warning S C;
                         cancelled_record]))
             (calls w ++ [0%nat; 1%nat])))
  /\ (current_sks S + sks C <= 24 ->
      ~ (prerequisite_needed C = true /\ prerequisites_met S = false) ->
      In (schedule_code C) (schedule S) ->
      r = (false,
           mkWorld
             (mkHeap S C
                (log ++ [opening_record S C; conflict_warning S C;
                         cancelled_record]))
             (calls w ++ [0%nat; 1%nat; 2%nat])))
  /\ (current_sks S + sks C <= 24 ->
      ~ (prerequisite_needed C = true /\ prerequisites_met S = false) ->
      ~ In (schedule_code C) (schedule S) ->
      r = (true,
           mkWorld
             (mkHeap (registered S C) C
                (log ++ [opening_record S C; success_record C]))
             (calls w ++ [0%nat; 1%nat; 2%nat]))).
Proof.
  intros S C log r. subst r. rewrite ocp_rules_run. cbv zeta.
  fold S C log.
  assert (Hover : current_sks S + sks C > 24 ->
                  (current_sks S + sks C >? 24) = true)
    by (intros H; apply Z.gtb_lt; lia).
  assert (Hwithin : current_sks S + sks C <= 24 ->
                    (current_sks S + sks C >? 24) = false)
    by (intros H; rewrite Z.gtb_ltb; apply Z.ltb_ge; exact H).
  assert (Hlack : prerequisite_needed C = true
                  /\ prerequisites_met S = false ->
                  prerequisite_needed C && negb (prerequisites_met S)
                  = true)
    by (intros [-> ->]; reflexivity).
  assert (Hhas : ~ (prerequisite_needed C = true
                    /\ prerequisites_met S = false) ->
                 prerequisite_needed C && negb (prerequisites_met S)
                 = false)
    by (destruct (prerequisite_needed C), (prerequisites_met S);
        simpl; intuition congruence).
  assert (Hclash : In (schedule_code C) (schedule S) ->
                   contains (schedule_code C) (schedule S) = true)
    by (apply contains_In).
  assert (Hfree : ~ In (schedule_code C) (schedule S) ->
                  contains (schedule_code C) (schedule S) = false).
  { intros Hno. destruct (contains _ _) eqn:Hc; [| reflexivity].
    apply contains_In in Hc. contradiction. }
  repeat split.
  - intros H. rewrite (Hover H). reflexivity.
  - intros H1 H2. rewrite (Hwithin H1), (Hlack H2). reflexivity.
  - intros H1 H2 H3. rewrite (Hwithin H1), (Hhas H2), (Hclash H3).
    reflexivity.
  - intros H1 H2 H3. rewrite (Hwithin H1), (Hhas H2), (Hfree H3).
    reflexivity.
Qed.

(** ** Which rules a run calls *)

Lemma for_rules_calls (rules : list IValidationRule) :
  forall (i : nat) (w : World),
    (fst (for_rules rules i w) = None
     /\ calls (snd (for_rules rules i w))
        = calls w ++ seq i (List.length rules))
    \/ (fst (for_rules rules i w) = Some false
        /\ exists k : nat,
             (k < List.length rules)%nat
             /\ calls (snd (for_rules rules i w)) = calls w ++ seq i (S k)).
Proof.
  induction rules as [| rule rest IH]; intros i w.
  - left. split; [reflexivity |]. cbn. rewrite app_nil_r. reflexivity.
  - destruct (fst (validate rule (heap w))) eqn:Hres.
    + rewrite for_rules_pass by exact Hres.
      assert (Hc : calls (snd (invoke i rule w)) = calls w ++ [i])
        by reflexivity.
      destruct (IH (S i) (snd (invoke i rule w)))
        as [[Hn Htr] | [Hf (k & Hk & Htr)]].
      * left. split; [exact Hn |].
        rewrite Htr, Hc, <- app_assoc. reflexivity.
      * right. split; [exact Hf |]. exists (S k).
        split; [cbn [List.length]; lia |].
        rewrite Htr, Hc, <- app_assoc. reflexivity.
    + right. destruct (for_rules_fail_heap rule rest i w Hres)
        as (Hf & _ & Htr).
      split; [exact Hf |]. exists 0%nat.
      split; [cbn [List.length]; lia | exact Htr].
Qed.

(** X5: whatever the injected rules do, [register_course] calls them in
    list order from the first, each at most once and none skipped: a run
    that returns true has called every rule exactly once, and a run that
    returns false has called the rules at indices 0 to [k], for some [k]
    within the list, and no other. *)
Theorem register_course_calls_in_order
  (rules : list IValidationRule) (w : World) :
  let r := register_course rules w in
  (fst r = true -> calls (snd r) = calls w ++ seq 0 (List.length rules))
  /\ (fst r = false ->
      exists k : nat,
        (k < List.length rules)%nat
        /\ calls (snd r) = calls w ++ seq 0 (S k)).
Proof.
  intros r. subst r. rewrite register_course_eq. cbv zeta.
  match goal with
  | |- context [for_rules rules 0 ?w0] =>
      destruct (for_rules_calls rules 0 w0)
        as [[Hn Htr] | [Hf (k & Hk & Htr)]]
  end.
  - rewrite Hn. cbn [fst snd calls]. split; intros Hres;
      [exact Htr | discriminate Hres].
  - rewrite Hf. cbn [fst snd]. split; intros Hres; [discriminate Hres |].
    exists k. split; [exact Hk | exact Htr].
Qed.

(** ** The order and the grouping of the rules *)

Lemma forallb_Permutation (A : Type) (f : A -> bool) (l l' : list A) :
  Permutation l l' -> forallb f l = forallb f l'.
Proof.
  induction 1 as [| x l l' _ IH | x y l | l l' l'' _ IH1 _ IH2];
    cbn [forallb].
  - reflexivity.
  - rewrite IH. reflexivity.
  - destruct (f x), (f y); reflexivity.
  - congruence.
Qed.

(** X6: with rules that keep their contract, the order in which the rules
    are injected changes neither the result of [register_course] nor the
    student it leaves (only which rejection is reported): two services
    whose rule lists are permutations of each other agree on both. *)
Theorem register_course_rule_order_irrelevant
  (rules rules' : list IValidationRule) (w : World) :
  Forall respects_contract rules ->
  Permutation rules rules' ->
  fst (register_course rules' w) = fst (register_course rules w)
  /\ student (heap (snd (register_course rules' w)))
     = student (heap (snd (register_course rules w))).
Proof.
  intros Hrules Hperm.
  assert (Hrules' : Forall respects_contract rules').
  { rewrite Forall_forall in *. intros rule Hin. apply Hrules.
    apply (Permutation_in rule (Permutation_sym Hperm) Hin). }
  destruct (register_course_contract rules w Hrules) as (Hr & Hst & _).
  destruct (register_course_contract rules' w Hrules') as (Hr' & Hst' & _).
  rewrite <- (forallb_Permutation _
                (fun rule => verdict rule (student (heap w))
                                     (course (heap w))) _ _ Hperm)
    in Hr', Hst'.
  split; congruence.
Qed.

(** X7: with rules that keep their contract, a service holding the rules
    of two services accepts exactly what both accept: [register_course]
    with [rules1 ++ rules2] returns true iff it returns true with [rules1]
    and with [rules2]. *)
Theorem register_course_combined_rules
  (rules1 rules2 : list IValidationRule) (w : World) :
  Forall respects_contract rules1 ->
  Forall respects_contract rules2 ->
  fst (register_course (rules1 ++ rules2) w)
  = fst (register_course rules1 w) && fst (register_course rules2 w).
Proof.
  intros H1 H2.
  destruct (register_course_contract rules1 w H1) as (Hr1 & _).
  destruct (register_course_contract rules2 w H2) as (Hr2 & _).
  destruct (register_course_contract (rules1 ++ rules2) w
              (proj2 (Forall_app _ _ _) (conj H1 H2))) as (Hr & _).
  rewrite Hr, Hr1, Hr2. apply forallb_app.
Qed.

(** ** Registering again, and sequences of registrations *)

Lemma register_course_step (rules : list IValidationRule) (C : Course)
  (w : World) :
  Forall respects_contract rules ->
  let S := student (heap w) in
  let w' := snd (register_course rules (with_course C w)) in
  (student (heap w') = S
   \/ (student (heap w') = registered S C
       /\ Forall (fun rule => verdict rule S C = true) rules)).
Proof.
  intros Hrules S w'.
  destruct (register_course_contract rules (with_course C w) Hrules)
    as (_ & Hst & _).
  cbn [with_course heap student course] in Hst. fold S in Hst.
  destruct (forallb (fun rule => verdict rule S C) rules) eqn:Hall.
  - right. split; [exact Hst | apply forallb_verdict; exact Hall].
  - left. exact Hst.
Qed.

(** X8: with the schedule-conflict rule among rules that keep their
    contract, a slot cannot be registered twice: right after a successful
    registration, registering any course with the same schedule code is
    rejected and leaves the student as the first registration left it. *)
Theorem register_course_same_slot_rejected
  (rules : list IValidationRule) (C' : Course) (w : World) :
  Forall respects_contract rules ->
  In JadwalBentrokRule rules ->
  schedule_code C' = schedule_code (course (heap w)) ->
  fst (register_course rules w) = true ->
  let w1 := snd (register_course rules w) in
  let r2 := register_course rules (with_course C' w1) in
  fst r2 = false /\ student (heap (snd r2)) = student (heap w1).
Proof.
  intros Hrules Hin Hcode Htrue w1 r2.
  destruct (register_course_contract rules w Hrules) as (Hr & Hst & _).
  rewrite Hr in Htrue. rewrite Htrue in Hst. fold w1 in Hst.
  destruct (register_course_contract rules (with_course C' w1) Hrules)
    as (Hr2 & Hst2 & _).
  fold r2 in Hr2, Hst2.
  cbn [with_course heap student course] in Hr2, Hst2.
  assert (Hbad : forallb (fun rule => verdict rule (student (heap w1)) C')
                   rules = false).
  { apply Exists_forallb_false. apply Exists_exists.
    exists JadwalBentrokRule. split; [exact Hin |].
    destruct (verdict JadwalBentrokRule (student (heap w1)) C') eqn:Hv;
      [| reflexivity].
    apply JadwalBentrokRule_verdict in Hv. exfalso. apply Hv.
    rewrite Hst, Hcode. cbn [registered schedule].
    apply in_or_app. right. left. reflexivity. }
  rewrite Hbad in Hr2, Hst2. split; assumption.
Qed.

(** X9: with the schedule-conflict rule among rules that keep their
    contract, a schedule without repeated slots stays without repeated
    slots through any sequence of registrations of the student. *)
Theorem schedule_stays_duplicate_free
  (rules : list IValidationRule) (courses : list Course) (w : World) :
  Forall respects_contract rules ->
  In JadwalBentrokRule rules ->
  NoDup (schedule (student (heap w))) ->
  NoDup (schedule (student (heap (register_each rules courses w)))).
Proof.
  intros Hrules Hin. revert w.
  induction courses as [| C rest IH]; intros w Hnodup; [exact Hnodup |].
  cbn [register_each]. apply IH.
  destruct (register_course_step rules C w Hrules) as [-> | [-> Hall]];
    [exact Hnodup |].
  cbn [registered schedule].
  apply (Permutation_NoDup (Permutation_cons_append _ _)).
  apply NoDup_cons; [| exact Hnodup].
  apply JadwalBentrokRule_verdict.
  rewrite Forall_forall in Hall. exact (Hall _ Hin).
Qed.


(** ** The further properties at the demo data of the module *)



Lemma ocp_rules_decision_table_witness :
  current_sks student_andi + sks course_pweb <= 24
  /\ ~ (prerequisite_needed course_pweb = true
        /\ prerequisites_met student_andi = false)
  /\ In (schedule_code course_pweb) (schedule student_andi)
  /\ register_course ocp_rules (fresh student_andi course_pweb)
     = (false,
        mkWorld
          (mkHeap student_andi course_pweb
             [opening_record student_andi course_pweb;
              conflict_warning student_andi course_pweb; cancelled_record])
          [0; 1; 2]%nat).
Proof.
  assert (H1 : current_sks student_andi + sks course_pweb <= 24)
    by (cbn; lia).
  assert (H2 : ~ (prerequisite_needed course_pweb = true
                  /\ prerequisites_met student_andi = false))
    by (intros [_ H]; discriminate H).
  assert (H3 : In (schedule_code course_pweb) (schedule student_andi))
    by (left; reflexivity).
  destruct (ocp_rules_decision_table (fresh student_andi course_pweb))
    as (_ & _ & Hclash & _).
  split; [exact H1 |]. split; [exact H2 |]. split; [exact H3 |].
  exact (Hclash H1 H2 H3).
Defined.

Lemma register_course_rule_order_irrelevant_witness :
  Forall respects_contract ocp_rules
  /\ Permutation ocp_rules
       [PrerequisiteRule; SksLimitRule; JadwalBentrokRule]
  /\ fst (register_course
            [PrerequisiteRule; SksLimitRule; JadwalBentrokRule]
            (fresh student_budi course_statis))
     = fst (register_course ocp_rules (fresh student_budi course_statis)).
Proof.
  assert (Hperm : Permutation ocp_rules
                    [PrerequisiteRule; SksLimitRule; JadwalBentrokRule])
    by apply perm_swap.
  split; [exact ocp_rules_contract |]. split; [exact Hperm |].
  exact (proj1 (register_course_rule_order_irrelevant ocp_rules
                  [PrerequisiteRule; SksLimitRule; JadwalBentrokRule]
                  (fresh student_budi course_statis)
                  ocp_rules_contract Hperm)).
Defined.

Lemma initial_rules_contract : Forall respects_contract initial_rules.
Proof.
  unfold initial_rules.
  repeat (apply Forall_cons || apply Forall_nil);
    [apply SksLimitRule_contract | apply PrerequisiteRule_contract].
Qed.

Lemma conflict_rule_contract : Forall respects_contract [JadwalBentrokRule].
Proof.
  apply Forall_cons; [apply JadwalBentrokRule_contract | apply Forall_nil].
Qed.

Lemma register_course_combined_rules_witness :
  Forall respects_contract initial_rules
  /\ Forall respects_contract [JadwalBentrokRule]
  /\ fst (register_course (initial_rules ++ [JadwalBentrokRule])
            (fresh student_andi course_pweb))
     = fst (register_course initial_rules (fresh student_andi course_pweb))
       && fst (register_course [JadwalBentrokRule]
                 (fresh student_andi course_pweb)).
Proof.
  split; [exact initial_rules_contract |].
  split; [exact conflict_rule_contract |].
  exact (register_course_combined_rules initial_rules [JadwalBentrokRule]
           (fresh student_andi course_pweb)
           initial_rules_contract conflict_rule_contract).
Defined.

Lemma register_course_same_slot_rejected_witness :
  In JadwalBentrokRule ocp_rules
  /\ fst (register_course ocp_rules (fresh student_andi course_pbo)) = true
  /\ fst (register_course ocp_rules
            (with_course course_pbo
               (snd (register_course ocp_rules
                       (fresh student_andi course_pbo))))) = false.
Proof.
  assert (Hin : In JadwalBentrokRule ocp_rules)
    by (right; right; left; reflexivity).
  split; [exact Hin |]. split; [reflexivity |].
  exact (proj1 (register_course_same_slot_rejected ocp_rules course_pbo
                  (fresh student_andi course_pbo) ocp_rules_contract Hin
                  eq_refl eq_refl)).
Defined.

Lemma schedule_stays_duplicate_free_witness :
  In JadwalBentrokRule ocp_rules
  /\ NoDup (schedule student_andi)
  /\ NoDup (schedule (student (heap (register_each ocp_rules
                                      [course_pbo; course_pweb; course_pbo]
                                      (fresh student_andi course_pbo))))).
Proof.
  assert (Hin : In JadwalBentrokRule ocp_rules)
    by (right; right; left; reflexivity).
  assert (Hnodup : NoDup (schedule student_andi)).
  { cbn. apply NoDup_cons.
    - intros [H | []]. discriminate H.
    - apply NoDup_cons; [intros [] | apply NoDup_nil]. }
  split; [exact Hin |]. split; [exact Hnodup |].
  exact (schedule_stays_duplicate_free ocp_rules
           [course_pbo; course_pweb; course_pbo]
           (fresh student_andi course_pbo) ocp_rules_contract Hin Hnodup).
Defined.


End RegistrationExtras.

(** * Further properties of the checkout *)

Module CheckoutExtras.
Import Logging RefactorSolid CheckoutProps.

Lemma run_checkout_eq (self : CheckoutService) (w : World) :
  let p := payment self w in
  run_checkout self w
  = if fst p then
      let n := send (notifier self)
                 (mkHeap (paid (order (snd p))) (records (snd p))
                         (stdout (snd p))) in
      (true,
       mkWorld
         (mkHeap (order (snd n)) (records (snd n) ++ [success_record])
                 (stdout (snd n)))
         (calls w ++ [CallProcess; CallSend]))
    else
      (false,
       mkWorld
         (mkHeap (order (snd p)) (records (snd p) ++ [failure_record])
                 (stdout (snd p)))
         (calls w ++ [CallProcess])).
Proof.
  intros p. subst p. unfold payment, run_checkout, bind. cbv beta zeta.
  change (fst (invoke CallProcess ?m ?x)) with (fst (m (heap x))).
  cbn [lift gets fst snd heap].
  destruct (fst (process (payment_processor self) _)); cbn;
    rewrite <- ?app_assoc; reflexivity.
Qed.

Lemma checkout_cc_run (w : World) :
  run_checkout checkout_cc w
  = (true,
     mkWorld
       (mkHeap (paid (order (heap w)))
          (records (heap w)
           ++ [opening_record (order (heap w));
               mkLogRecord INFO "checkout"
                 [Lit "Payment: Memproses kartu kredit."];
               mail_record (order (heap w)); success_record])
          (stdout (heap w)))
       (calls w ++ [CallProcess; CallSend])).
Proof.
  rewrite run_checkout_eq. cbn. rewrite <- !app_assoc. reflexivity.
Qed.

Lemma checkout_qris_run (w : World) :
  run_checkout checkout_qris w
  = (true,
     mkWorld
       (mkHeap (paid (order (heap w)))
          (records (heap w)
           ++ [opening_record (order (heap w));
               mkLogRecord INFO "checkout" [Lit "Payment: Memproses QRIS."];
               mail_record (order (heap w)); success_record])
          (stdout (heap w)))
       (calls w ++ [CallProcess; CallSend])).
Proof.
  rewrite run_checkout_eq. cbn. rewrite <- !app_assoc. reflexivity.
Qed.

(** X11: the two services of the demo never fail.  With
    [CreditCardProcessor] or [QrisProcessor] and [EmailNotifier],
    [run_checkout] on any order returns true, leaves the order paid (name
    and price kept), calls the processor then the notifier, prints
    nothing, and adds exactly four INFO records: its opening, the
    processor's, the notifier's and its closing. *)
Theorem shipped_services_always_pay (w : World) :
  let o := order (heap w) in
  run_checkout checkout_cc w
  = (true,
     mkWorld
       (mkHeap (paid o)
          (records (heap w)
           ++ [opening_record o;
               mkLogRecord INFO "checkout"
                 [Lit "Payment: Memproses kartu kredit."];
               mail_record o; success_record])
          (stdout (heap w)))
       (calls w ++ [CallProcess; CallSend]))
  /\ run_checkout checkout_qris w
     = (true,
        mkWorld
          (mkHeap (paid o)
             (records (heap w)
              ++ [opening_record o;
                  mkLogRecord INFO "checkout" [Lit "Payment: Memproses QRIS."];
                  mail_record o; success_record])
             (stdout (heap w)))
          (calls w ++ [CallProcess; CallSend])).
Proof.
  intros o. subst o. split; [apply checkout_cc_run | apply checkout_qris_run].
Qed.

(** X12: when the processor declines, the notifier plays no part at all:
    [run_checkout] gives the same result and the same final state with any
    other notifier in its place, and what it leaves is what the processor
    left plus one ERROR record. *)
Theorem run_checkout_declined_ignores_notifier
  (p : IPaymentProcessor) (n n' : INotificationService) (w : World) :
  fst (payment (mkCheckoutService p n) w) = false ->
  let r := run_checkout (mkCheckoutService p n) w in
  let hp := snd (payment (mkCheckoutService p n) w) in
  run_checkout (mkCheckoutService p n') w = r
  /\ r = (false,
          mkWorld
            (mkHeap (order hp) (records hp ++ [failure_record]) (stdout hp))
            (calls w ++ [CallProcess])).
Proof.
  intros Hbad r hp. subst r hp. rewrite !run_checkout_eq. cbv zeta.
  change (payment (mkCheckoutService p n') w)
    with (payment (mkCheckoutService p n) w).
  rewrite Hbad. split; reflexivity.
Qed.

Lemma run_checkout_order (self : CheckoutService) (w : World) :
  processor_keeps_order (payment_processor self) ->
  notifier_keeps_order (notifier self) ->
  order (heap (snd (run_checkout self w)))
  = if fst (run_checkout self w) then paid (order (heap w))
    else order (heap w).
Proof.
  intros Hp Hn. rewrite run_checkout_result.
  destruct (run_checkout_outcome self w Hp Hn) as [Hyes Hno].
  destruct (fst (payment self w)).
  - destruct (Hyes eq_refl) as [Ho _]. exact Ho.
  - destruct (Hno eq_refl) as [Ho _]. exact Ho.
Qed.

(** X13: with a processor and a notifier that do not write to the order,
    however often an order is run through [run_checkout], its customer
    name and total price never change, its status is either the one it
    started with or "paid", and once "paid" it stays "paid": no run moves
    an order back to "open" or to any other status. *)
Theorem checkout_times_status (self : CheckoutService) (n : nat)
  (w : World) :
  processor_keeps_order (payment_processor self) ->
  notifier_keeps_order (notifier self) ->
  let o := order (heap w) in
  let o' := order (heap (checkout_times self n w)) in
  customer_name o' = customer_name o
  /\ total_price o' = total_price o
  /\ (status o' = status o \/ status o' = "paid"%string)
  /\ (status o = "paid"%string -> status o' = "paid"%string).
Proof.
  intros Hp Hn. revert w.
  induction n as [| n IH]; intros w o o'; subst o o'.
  - cbn. repeat split; [left; reflexivity | intros H; exact H].
  - cbn [checkout_times].
    destruct (IH (snd (run_checkout self w))) as (Hname & Hprice & Hst & Hpaid).
    rewrite (run_checkout_order self w Hp Hn) in Hname, Hprice, Hst, Hpaid.
    destruct (fst (run_checkout self w));
      cbn [paid customer_name total_price status] in *.
    + repeat split; try assumption.
      * right. destruct Hst as [Hst | Hst]; exact Hst.
      * intros _. apply Hpaid. reflexivity.
    + repeat split; assumption.
Qed.

(** X14: the refactoring keeps the behaviour for credit cards.  On any
    order, the old [OrderManager.process_checkout] with "credit_card" and
    the new [run_checkout] with [CreditCardProcessor] and [EmailNotifier]
    return the same value and leave the same order; they differ in where
    they report: the old code only prints (three lines, no log record),
    the new code only logs (it prints nothing). *)
Theorem refactoring_agrees_on_credit_card (h : Heap) (cs : list Call) :
  let old := process_checkout "credit_card" h in
  let new := run_checkout checkout_cc (mkWorld h cs) in
  fst old = fst new
  /\ order (snd old) = order (heap (snd new))
  /\ records (snd old) = records h
  /\ stdout (snd old)
     = stdout h
       ++ [[Lit "Memulai checkout untuk "; Str (customer_name (order h));
            Lit "..."];
           [Lit "Processing Credit Card..."];
           [Lit "Mengirim notifikasi ke "; Str (customer_name (order h));
            Lit "..."]]
  /\ stdout (heap (snd new)) = stdout h.
Proof.
  intros old new. subst old new.
  rewrite checkout_cc_run.
  cbn. rewrite <- !app_assoc. repeat split.
Qed.

(** ** The further properties at concrete orders *)

Lemma run_checkout_declined_ignores_notifier_witness :
  fst (payment (mkCheckoutService DecliningProcessor EmailNotifier)
         (fresh andi_order)) = false
  /\ run_checkout
       (mkCheckoutService DecliningProcessor
          (mkNotifier (set_status "shipped")))
       (fresh andi_order)
     = run_checkout (mkCheckoutService DecliningProcessor EmailNotifier)
         (fresh andi_order).
Proof.
  split; [reflexivity |].
  exact (proj1 (run_checkout_declined_ignores_notifier DecliningProcessor
                  EmailNotifier (mkNotifier (set_status "shipped"))
                  (fresh andi_order) eq_refl)).
Defined.

Lemma checkout_times_status_witness :
  processor_keeps_order CreditCardProcessor
  /\ notifier_keeps_order EmailNotifier
  /\ customer_name (order (heap (checkout_times checkout_cc 3
                                   (fresh andi_order)))) = "Andi"%string
  /\ (status (order (heap (checkout_times checkout_cc 3
                             (fresh andi_order)))) = "open"%string
      \/ status (order (heap (checkout_times checkout_cc 3
                                (fresh andi_order)))) = "paid"%string).
Proof.
  destruct (checkout_times_status checkout_cc 3 (fresh andi_order)
              CreditCardProcessor_keeps_order EmailNotifier_keeps_order)
    as (Hname & _ & Hst & _).
  split; [exact CreditCardProcessor_keeps_order |].
  split; [exact EmailNotifier_keeps_order |].
  split; [exact Hname | exact Hst].
Defined.

End CheckoutExtras.
